(** * Platform layer of the chip-data receiver: validation, anomaly
      detection, health scoring, bounded history and reports.

    Shallow embedding of [src/542/platform_layer.js].

    Numbers.  A JavaScript number is modelled as an exact rational or NaN
    ([num := option Q], [None] standing for NaN).  Every JavaScript division
    of the module has a non-zero divisor on the paths that reach it (constant
    threshold differences, a history length, a guarded time span, a guarded
    mean), so infinities do not arise; rounding error of binary floating
    point is abstracted away.

    Metric fields of a reading.  A field is absent ([VUndef]), [null], NaN or
    a number; relational operators convert with [ToNumber] ([undefined] to
    NaN, [null] to zero) and are false whenever an operand is NaN.

    Effects.  The three closure arrays are an explicit [State]; a function
    that can raise returns an [outcome]; [Date.now()] is an argument. *)

From Stdlib Require Import ZArith QArith Qround Qabs List String Bool Lia.
From Stdlib Require Import DecimalString Lqa.
Import ListNotations.

Open Scope string_scope.
Open Scope Q_scope.

(** ** JavaScript values and numbers *)

Inductive jsval : Type :=
| VUndef
| VNull
| VNaN
| VNum (q : Q).

Definition num : Type := option Q.

Definition NaN : num := None.

Definition ToNumber (v : jsval) : num :=
  match v with
  | VUndef => NaN
  | VNull => Some 0
  | VNaN => NaN
  | VNum q => Some q
  end.

Definition Qlt_bool (a b : Q) : bool := negb (Qle_bool b a).

Definition num_lt (x y : num) : bool :=
  match x, y with
  | Some a, Some b => Qlt_bool a b
  | _, _ => false
  end.

Definition num_le (x y : num) : bool :=
  match x, y with
  | Some a, Some b => Qle_bool a b
  | _, _ => false
  end.

Definition num_gt (x y : num) : bool := num_lt y x.
Definition num_ge (x y : num) : bool := num_le y x.

Definition num_lift2 (f : Q -> Q -> Q) (x y : num) : num :=
  match x, y with
  | Some a, Some b => Some (f a b)
  | _, _ => NaN
  end.

Definition num_add : num -> num -> num := num_lift2 Qplus.
Definition num_sub : num -> num -> num := num_lift2 Qminus.
Definition num_mul : num -> num -> num := num_lift2 Qmult.

(** Division: a zero divisor never reaches a division of the module; the
    model answers NaN there. *)
Definition num_div (x y : num) : num :=
  match x, y with
  | Some a, Some b => if Qeq_bool b 0 then NaN else Some (a / b)
  | _, _ => NaN
  end.

Definition Math_abs (x : num) : num := option_map Qabs x.

(** [v < c], [v > c], ... for a field [v] and a numeric constant [c]. *)
Definition js_lt (v : jsval) (c : Q) : bool := num_lt (ToNumber v) (Some c).
Definition js_gt (v : jsval) (c : Q) : bool := num_gt (ToNumber v) (Some c).
Definition js_le (v : jsval) (c : Q) : bool := num_le (ToNumber v) (Some c).
Definition js_ge (v : jsval) (c : Q) : bool := num_ge (ToNumber v) (Some c).

(** [Math.round]: nearest integer, ties towards plus infinity. *)
Definition Math_round (q : Q) : Z := Qfloor (q + (1 # 2)).

(** ** [Number.prototype.toFixed] *)

Definition pow10 (d : nat) : Z := Z.pow 10 (Z.of_nat d).

(** The integer [n] for which [n / 10^d] is nearest to the magnitude of [q],
    the larger one on a tie. *)
Definition fixed_units (d : nat) (q : Q) : Z :=
  Qfloor (Qabs q * inject_Z (pow10 d) + (1 # 2)).

Definition string_of_Z (z : Z) : string :=
  NilZero.string_of_uint (N.to_uint (Z.to_N z)).

Fixpoint zeros (n : nat) : string :=
  match n with
  | O => ""
  | S k => "0" ++ zeros k
  end.

Definition pad_left (d : nat) (s : string) : string :=
  zeros (d - String.length s) ++ s.

Definition toFixed_text (d : nat) (q : Q) : string :=
  let n := fixed_units d q in
  let sign := if Qlt_bool q 0 then "-" else "" in
  let whole := string_of_Z (n / pow10 d) in
  match d with
  | O => sign ++ whole
  | _ => sign ++ whole ++ "." ++ pad_left d (string_of_Z (n mod pow10 d))
  end.

(** The number that the text of [toFixed] denotes when read back. *)
Definition toFixed_value (d : nat) (q : Q) : Q :=
  let m := inject_Z (fixed_units d q) / inject_Z (pow10 d) in
  if Qlt_bool q 0 then - m else m.

(** A [toFixed] result: its text, and the number [parseFloat] and the
    implicit [ToNumber] of [Math.round] and of [<] read back from it. *)
Record fixedstr : Type := mkFixed { fx_text : string; fx_value : num }.

Definition toFixed (d : nat) (x : num) : fixedstr :=
  match x with
  | None => mkFixed "NaN" NaN
  | Some q => mkFixed (toFixed_text d q) (Some (toFixed_value d q))
  end.

Definition parseFloat (f : fixedstr) : num := fx_value f.

(** ** Errors *)

Inductive js_error : Type :=
| TypeError   (* a property read on [null] or [undefined] *)
| RangeError. (* maximum call stack size exceeded *)

Inductive outcome (A : Type) : Type :=
| Returns (a : A)
| Throws (e : js_error).

Arguments Returns {A} a.
Arguments Throws {A} e.

Definition bind {A B : Type} (m : outcome A) (k : A -> outcome B) : outcome B :=
  match m with
  | Returns a => k a
  | Throws e => Throws e
  end.

Notation "x <- m ;; k" := (bind m (fun x => k))
  (at level 61, m at next level, right associativity).

(** [v.toFixed(d)] on a metric field: a method call on [null] or [undefined]
    raises [TypeError]. *)
Definition field_toFixed (v : jsval) (d : nat) : outcome string :=
  match v with
  | VUndef => Throws TypeError
  | VNull => Throws TypeError
  | VNaN => Returns "NaN"
  | VNum q => Returns (toFixed_text d q)
  end.

(** ** Configuration *)

Inductive metric : Type :=
| Temperature | Voltage | Current | Vibration | Displacement | Tilt.

Definition requiredFields : list metric :=
  [Temperature; Voltage; Current; Vibration; Displacement; Tilt].

Module config.

Module normalRanges.
Module temperature.
Definition min : Q := 20.
Definition max : Q := 30.
Definition unit : string := "°C".
End temperature.
Module voltage.
Definition min : Q := 3.2.
Definition max : Q := 3.4.
Definition unit : string := "G".
End voltage.
Module current.
Definition min : Q := 140.
Definition max : Q := 160.
Definition unit : string := "Z".
End current.
Module vibration.
Definition min : Q := 0.
Definition max : Q := 0.1.
Definition unit : string := "g".
End vibration.
Module displacement.
Definition min : Q := 0.
Definition max : Q := 1.0.
Definition unit : string := "mm".
End displacement.
Module tilt.
Definition min : Q := 0.
Definition max : Q := 5.0.
Definition unit : string := "°".
End tilt.
End normalRanges.

Module warningThresholds.
Module temperature.
Definition min : Q := 18.
Definition max : Q := 32.
End temperature.
Module voltage.
Definition min : Q := 3.0.
Definition max : Q := 3.6.
End voltage.
Module current.
Definition min : Q := 120.
Definition max : Q := 180.
End current.
Module vibration.
Definition max : Q := 0.08.
End vibration.
Module displacement.
Definition max : Q := 0.8.
End displacement.
Module tilt.
Definition max : Q := 4.0.
End tilt.
End warningThresholds.

Module anomalyThresholds.
Module temperature.
Definition min : Q := 15.
Definition max : Q := 35.
End temperature.
Module voltage.
Definition min : Q := 2.8.
Definition max : Q := 3.8.
End voltage.
Module current.
Definition min : Q := 100.
Definition max : Q := 200.
End current.
Module vibration.
Definition max : Q := 0.09.
End vibration.
Module displacement.
Definition max : Q := 0.9.
End displacement.
Module tilt.
Definition max : Q := 4.5.
End tilt.
End anomalyThresholds.

Module dataQualityParams.
Definition completenessThreshold : Q := 95.
Definition accuracyThreshold : Q := 90.
Definition stabilityThreshold : Q := 85.
End dataQualityParams.

Module healthScoreWeights.
Definition temperature : Q := 0.2.
Definition voltage : Q := 0.2.
Definition current : Q := 0.2.
Definition vibration : Q := 0.15.
Definition displacement : Q := 0.15.
Definition tilt : Q := 0.1.
End healthScoreWeights.

Definition historyLimit : nat := 1000.

End config.

(** ** Data model *)

Record Reading : Type := mkReading {
  timestamp : option Z;
  temperature : jsval;
  voltage : jsval;
  current : jsval;
  vibration : jsval;
  displacement : jsval;
  tilt : jsval
}.

(** [data[field]] *)
Definition field (data : Reading) (m : metric) : jsval :=
  match m with
  | Temperature => temperature data
  | Voltage => voltage data
  | Current => current data
  | Vibration => vibration data
  | Displacement => displacement data
  | Tilt => tilt data
  end.

Record AnomalyResult : Type := mkAnomalyResult {
  ar_isAnomaly : bool;
  ar_reason : string
}.

Record HealthStatus : Type := mkStatus { text : string; color : string }.

(** An entry of [processedDataHistory].  The display-only [timeString] is
    not modelled. *)
Record ProcessedRecord : Type := mkProcessed {
  pr_timestamp : Z;
  pr_data : Reading;
  pr_healthScore : Z;
  pr_isAnomaly : bool;
  pr_anomalyReason : string
}.

Record HealthSample : Type := mkSample { hs_timestamp : Z; hs_score : Z }.

Record AnomalyRecord : Type := mkAnomalyRecord {
  al_timestamp : Z;
  al_data : Reading;
  al_reason : string
}.

(** The module's closure state, and the [platform.anomaly] events handed to
    [window.dispatchEvent] so far (newest last). *)
Record State : Type := mkState {
  processedDataHistory : list ProcessedRecord;
  anomalyLog : list AnomalyRecord;
  healthHistory : list HealthSample;
  dispatched : list AnomalyRecord
}.

Definition initial : State := mkState [] [] [] [].

(** A metric name read as a property of a history ENTRY.  The entry object
    has the own properties timestamp, timeString, data, healthScore,
    isAnomaly and anomalyReason and nothing else: the six metrics live one
    level down, under [data].  Reading [entry.temperature] and the like
    therefore yields [undefined]. *)
Definition entry_property (entry : ProcessedRecord) (m : metric) : jsval :=
  VUndef.

(** [arr[arr.length - 1]] under the guard [arr.length > 0]. *)
Definition last_entry {A : Type} (arr : list A) : option A :=
  last (map Some arr) None.

(** ** Validator *)

Definition validateDataCompleteness (data : Reading) : bool :=
  forallb
    (fun f =>
       match field data f with
       | VUndef => false
       | VNull => false
       | _ => true
       end)
    requiredFields.

Definition out_of_range (v : jsval) (lo hi : Q) : bool :=
  js_lt v lo || js_gt v hi.

(** [Math.abs(data.m - lastData.m) > ceiling] *)
Definition jump_exceeds (data : Reading) (lastData : ProcessedRecord)
    (m : metric) (ceiling : Q) : bool :=
  num_gt
    (Math_abs (num_sub (ToNumber (field data m))
                       (ToNumber (entry_property lastData m))))
    (Some ceiling).

Definition validateDataAccuracy (s : State) (data : Reading) : bool :=
  if out_of_range (temperature data) (-50) 150 then false
  else if out_of_range (voltage data) 0 10 then false
  else if out_of_range (current data) 0 1000 then false
  else if out_of_range (vibration data) 0 1 then false
  else if out_of_range (displacement data) 0 10 then false
  else if out_of_range (tilt data) 0 90 then false
  else
    match last_entry (processedDataHistory s) with
    | Some lastData =>
        if jump_exceeds data lastData Temperature 5 then false
        else if jump_exceeds data lastData Voltage 0.5 then false
        else if jump_exceeds data lastData Current 50 then false
        else if jump_exceeds data lastData Vibration 0.05 then false
        else if jump_exceeds data lastData Displacement 0.5 then false
        else if jump_exceeds data lastData Tilt 2 then false
        else true
    | None => true
    end.

(** ** Number to text in template literals *)

Definition is_integer (q : Q) : bool := Qeq_bool q (inject_Z (Qfloor q)).

Fixpoint shortest_digits (fuel d : nat) (q : Q) : nat :=
  if is_integer (q * inject_Z (pow10 d)) then d
  else
    match fuel with
    | O => d
    | S fuel' => shortest_digits fuel' (S d) q
    end.

(** [String(x)] for a number with a short decimal expansion (every number a
    template literal of the module prints is a configuration constant, an
    integer or read back from a [toFixed] text): the digits without trailing
    zeros. *)
Definition Number_toString (x : num) : string :=
  match x with
  | None => "NaN"
  | Some q => toFixed_text (shortest_digits 20 0 q) q
  end.

Definition show (c : Q) : string := Number_toString (Some c).

(** ** Anomaly detector *)

(** One [if (data.m < min) {...} else if (data.m > max) {...}] statement,
    acting on the mutable [result] object. *)
Definition check_two_sided (v : jsval) (lo hi : Q) (digits : nat)
    (low_label high_label unit : string) (result : AnomalyResult)
    : outcome AnomalyResult :=
  if js_lt v lo then
    t <- field_toFixed v digits ;;
    Returns (mkAnomalyResult true
      (low_label ++ " (" ++ t ++ unit ++ " < " ++ show lo ++ unit ++ ")"))
  else if js_gt v hi then
    t <- field_toFixed v digits ;;
    Returns (mkAnomalyResult true
      (high_label ++ " (" ++ t ++ unit ++ " > " ++ show hi ++ unit ++ ")"))
  else Returns result.

(** One [if (data.m > max) {...}] statement. *)
Definition check_upper (v : jsval) (hi : Q) (digits : nat)
    (high_label unit : string) (result : AnomalyResult)
    : outcome AnomalyResult :=
  if js_gt v hi then
    t <- field_toFixed v digits ;;
    Returns (mkAnomalyResult true
      (high_label ++ " (" ++ t ++ unit ++ " > " ++ show hi ++ unit ++ ")"))
  else Returns result.

Definition detectAnomaly (data : Reading) : outcome AnomalyResult :=
  let result := mkAnomalyResult false "" in
  result <- check_two_sided (temperature data)
              config.anomalyThresholds.temperature.min
              config.anomalyThresholds.temperature.max
              1 "温度过低" "温度过高" "°C" result ;;
  result <- check_two_sided (voltage data)
              config.anomalyThresholds.voltage.min
              config.anomalyThresholds.voltage.max
              2 "压力值过低" "压力值过高" "G" result ;;
  result <- check_two_sided (current data)
              config.anomalyThresholds.current.min
              config.anomalyThresholds.current.max
              1 "震动程度过低" "震动程度过高" "Z" result ;;
  result <- check_upper (vibration data)
              config.anomalyThresholds.vibration.max
              3 "振动强度过高" "g" result ;;
  result <- check_upper (displacement data)
              config.anomalyThresholds.displacement.max
              2 "位移过大" "mm" result ;;
  result <- check_upper (tilt data)
              config.anomalyThresholds.tilt.max
              2 "倾斜角度过大" "°" result ;;
  Returns result.

(** ** Health scorer *)

Definition calculateMetricScore (value : jsval)
    (normalMin normalMax anomalyMin anomalyMax : Q) : Q :=
  if js_ge value normalMin && js_le value normalMax then 100
  else if js_ge value anomalyMin && js_le value anomalyMax then
    match ToNumber value with
    | Some v =>
        if Qlt_bool v normalMin then
          let range := normalMin - anomalyMin in
          let distance := normalMin - v in
          100 - (distance / range) * 100
        else
          let range := anomalyMax - normalMax in
          let distance := v - normalMax in
          100 - (distance / range) * 100
    | None => 0 (* not reached: both comparisons above are false on NaN *)
    end
  else 0.

Definition calculateUpperBoundScore (value : jsval)
    (normalMax anomalyMax : Q) : Q :=
  if js_le value normalMax then 100
  else if js_le value anomalyMax then
    match ToNumber value with
    | Some v =>
        let range := anomalyMax - normalMax in
        let distance := v - normalMax in
        100 - (distance / range) * 100
    | None => 0 (* not reached *)
    end
  else 0.

(** The per-metric score that [calculateHealthScore] computes for [m]. *)
Definition metricScore (data : Reading) (m : metric) : Q :=
  match m with
  | Temperature =>
      calculateMetricScore (temperature data)
        config.normalRanges.temperature.min
        config.normalRanges.temperature.max
        config.anomalyThresholds.temperature.min
        config.anomalyThresholds.temperature.max
  | Voltage =>
      calculateMetricScore (voltage data)
        config.normalRanges.voltage.min
        config.normalRanges.voltage.max
        config.anomalyThresholds.voltage.min
        config.anomalyThresholds.voltage.max
  | Current =>
      calculateMetricScore (current data)
        config.normalRanges.current.min
        config.normalRanges.current.max
        config.anomalyThresholds.current.min
        config.anomalyThresholds.current.max
  | Vibration =>
      calculateUpperBoundScore (vibration data)
        config.normalRanges.vibration.max
        config.anomalyThresholds.vibration.max
  | Displacement =>
      calculateUpperBoundScore (displacement data)
        config.normalRanges.displacement.max
        config.anomalyThresholds.displacement.max
  | Tilt =>
      calculateUpperBoundScore (tilt data)
        config.normalRanges.tilt.max
        config.anomalyThresholds.tilt.max
  end.

(** The running [score] just before rounding and clamping. *)
Definition compositeScore (data : Reading) : Q :=
  let score := 100 in
  let tempScore := metricScore data Temperature in
  let score := score - (100 - tempScore) * config.healthScoreWeights.temperature in
  let voltageScore := metricScore data Voltage in
  let score := score - (100 - voltageScore) * config.healthScoreWeights.voltage in
  let currentScore := metricScore data Current in
  let score := score - (100 - currentScore) * config.healthScoreWeights.current in
  let vibrationScore := metricScore data Vibration in
  let score := score - (100 - vibrationScore) * config.healthScoreWeights.vibration in
  let displacementScore := metricScore data Displacement in
  let score := score - (100 - displacementScore) * config.healthScoreWeights.displacement in
  let tiltScore := metricScore data Tilt in
  let score := score - (100 - tiltScore) * config.healthScoreWeights.tilt in
  score.

Definition calculateHealthScore (data : Reading) : Z :=
  Z.max 0 (Z.min 100 (Math_round (compositeScore data))).

Definition determineHealthStatus (score : Z) : HealthStatus :=
  if (90 <=? score)%Z then mkStatus "优秀" "bg-green-500"
  else if (80 <=? score)%Z then mkStatus "良好" "bg-green-400"
  else if (70 <=? score)%Z then mkStatus "正常" "bg-blue-400"
  else if (60 <=? score)%Z then mkStatus "警告" "bg-yellow-500"
  else mkStatus "危险" "bg-red-500".

(** ** History store *)

(** [log.push(entry); if (log.length > limit) log.shift();] *)
Definition push_capped {A : Type} (limit : nat) (log : list A) (entry : A)
    : list A :=
  let log := (log ++ [entry])%list in
  if (limit <? List.length log)%nat then tl log else log.

(** [data.timestamp || Date.now()]: an absent or zero timestamp is falsy. *)
Definition timestamp_or (now : Z) (data : Reading) : Z :=
  match timestamp data with
  | Some t => if (t =? 0)%Z then now else t
  | None => now
  end.

Definition recordProcessedData (now : Z) (data : Reading) (healthScore : Z)
    (anomalyResult : AnomalyResult) (s : State) : State :=
  mkState
    (push_capped config.historyLimit (processedDataHistory s)
       (mkProcessed (timestamp_or now data) data healthScore
          (ar_isAnomaly anomalyResult) (ar_reason anomalyResult)))
    (anomalyLog s) (healthHistory s) (dispatched s).

Definition recordHealthHistory (now : Z) (score : Z) (s : State) : State :=
  mkState (processedDataHistory s) (anomalyLog s)
    (push_capped config.historyLimit (healthHistory s) (mkSample now score))
    (dispatched s).

Definition logAnomaly (now : Z) (data : Reading) (reason : string) (s : State)
    : State :=
  mkState (processedDataHistory s)
    (push_capped 1000 (anomalyLog s)
       (mkAnomalyRecord (timestamp_or now data) data reason))
    (healthHistory s) (dispatched s).

Definition triggerAnomalyEvent (now : Z) (data : Reading) (reason : string)
    (s : State) : State :=
  mkState (processedDataHistory s) (anomalyLog s) (healthHistory s)
    (dispatched s ++ [mkAnomalyRecord (timestamp_or now data) data reason])%list.

(** ** Ingest pipeline *)

Record Result : Type := mkResult {
  rawData : Reading;
  isComplete : bool;
  isAccurate : bool;
  isAnomaly : bool;
  anomalyReason : string;
  healthScore : Z;
  healthStatus : HealthStatus
}.

(** [receiveData(rawData)] called when the clock reads [now], in state [s]:
    what the call does (returns a result or raises) and the state it
    leaves behind. *)
Definition receiveData (now : Z) (rawData : Reading) (s : State)
    : outcome Result * State :=
  let isComplete := validateDataCompleteness rawData in
  let isAccurate := validateDataAccuracy s rawData in
  match detectAnomaly rawData with
  | Throws e => (Throws e, s)
  | Returns anomalyResult =>
      let healthScore := calculateHealthScore rawData in
      let healthStatus := determineHealthStatus healthScore in
      let s := recordProcessedData now rawData healthScore anomalyResult s in
      let result :=
        mkResult rawData isComplete isAccurate (ar_isAnomaly anomalyResult)
          (ar_reason anomalyResult) healthScore healthStatus in
      let s :=
        if ar_isAnomaly anomalyResult then
          triggerAnomalyEvent now rawData (ar_reason anomalyResult)
            (logAnomaly now rawData (ar_reason anomalyResult) s)
        else s in
      let s := recordHealthHistory now healthScore s in
      (Returns result, s)
  end.

(** Feeding a sequence of (clock, reading) pairs, one call after another; a
    call that raises leaves its state to the next call. *)
Fixpoint ingest_all (inputs : list (Z * Reading)) (s : State) : State :=
  match inputs with
  | [] => s
  | (now, rawData) :: rest => ingest_all rest (snd (receiveData now rawData s))
  end.

(** Read accessors: [[...log].reverse().slice(0, limit)]. *)
Definition getAnomalyLog (limit : nat) (s : State) : list AnomalyRecord :=
  firstn limit (rev (anomalyLog s)).

Definition getHealthHistory (limit : nat) (s : State) : list HealthSample :=
  firstn limit (rev (healthHistory s)).

Definition getProcessedDataHistory (limit : nat) (s : State)
    : list ProcessedRecord :=
  firstn limit (rev (processedDataHistory s)).

(** A reading with six numeric fields. *)
Definition reading (ts : Z) (t v c vib d tl : Q) : Reading :=
  mkReading (Some ts) (VNum t) (VNum v) (VNum c) (VNum vib) (VNum d) (VNum tl).

Definition normal_reading (ts : Z) : Reading :=
  reading ts 25 3.3 150 0.05 0.5 2.

(** ** Report engine *)

Definition znum : Type := option Z.

(** [Math.round] on a possibly-NaN number. *)
Definition num_round (x : num) : znum := option_map Math_round x.

Definition znum_lt (x : znum) (c : Z) : bool :=
  match x with Some a => (a <? c)%Z | None => false end.

Definition znum_ge (x : znum) (c : Z) : bool :=
  match x with Some a => (c <=? a)%Z | None => false end.

(** [Math.max(0, Math.min(100, x))] *)
Definition clamp_0_100 (x : znum) : znum :=
  option_map (fun a => Z.max 0 (Z.min 100 a)) x.

Definition num_of_nat (n : nat) : num := Some (inject_Z (Z.of_nat n)).
Definition num_of_Z (z : Z) : num := Some (inject_Z z).

Definition calculateMean (values : list num) : num :=
  match values with
  | [] => Some 0
  | _ => num_div (fold_left num_add values (Some 0))
                 (num_of_nat (List.length values))
  end.

Definition num_min (x y : num) : num :=
  num_lift2 (fun a b => if Qle_bool a b then a else b) x y.

Definition num_max (x y : num) : num :=
  num_lift2 (fun a b => if Qle_bool a b then b else a) x y.

(** [Math.min(...values)] and [Math.max(...values)] on a non-empty array. *)
Definition Math_min (values : list num) : num :=
  match values with
  | [] => NaN (* not reached: the callers return early on an empty history *)
  | v :: vs => fold_left num_min vs v
  end.

Definition Math_max (values : list num) : num :=
  match values with
  | [] => NaN (* not reached *)
  | v :: vs => fold_left num_max vs v
  end.

Definition column (m : metric) (s : State) : list num :=
  map (fun item => ToNumber (field (pr_data item) m)) (processedDataHistory s).

Record MetricStats : Type := mkStats {
  st_mean : fixedstr;
  st_stdDev : fixedstr;
  st_min : fixedstr;
  st_max : fixedstr;
  st_unit : string
}.

Record KeyMetrics : Type := mkKeyMetrics {
  km_temperature : MetricStats;
  km_voltage : MetricStats;
  km_current : MetricStats;
  km_vibration : MetricStats;
  km_displacement : MetricStats;
  km_tilt : MetricStats
}.

(** A number, or the text of a [toFixed]. *)
Inductive numtext : Type :=
| IsNumber (x : num)
| IsText (f : fixedstr).

Definition numtext_value (t : numtext) : num :=
  match t with
  | IsNumber x => x
  | IsText f => parseFloat f
  end.

Record HealthScoreSummary : Type := mkSummary {
  hr_current : Z;
  hr_average : num;
  hr_trend : numtext;
  hr_status : HealthStatus
}.

Record AnomalyStats : Type := mkAnomalyStats {
  as_count : nat;
  as_rate : numtext
}.

(** [keyMetrics] is [None] for the empty object. *)
Record HealthReport : Type := mkHealthReport {
  duration : string;
  hr_healthScore : HealthScoreSummary;
  anomalyStats : AnomalyStats;
  keyMetrics : option KeyMetrics;
  issues : list string;
  recommendations : list string
}.

Definition insufficientHealthReport : HealthReport :=
  mkHealthReport "不足"
    (mkSummary 0 (Some 0) (IsNumber (Some 0)) (mkStatus "数据不足" "bg-gray-500"))
    (mkAnomalyStats 0 (IsNumber (Some 0)))
    None
    ["数据不足，无法生成健康评估报告"]
    ["请收集更多数据后再试"].

Definition show_Z (z : Z) : string :=
  if (z <? 0)%Z then "-" ++ string_of_Z (- z) else string_of_Z z.

Definition includes (s pattern : string) : bool :=
  match String.index 0 pattern s with
  | Some _ => true
  | None => false
  end.

Definition recommendation_for (issue : string) : list string :=
  if includes issue "温度偏低" then
    ["检查温度传感器是否正常工作，确保设备处于适宜的工作环境温度范围内。"]
  else if includes issue "温度偏高" then
    ["检查散热系统是否正常工作，确保设备通风良好，必要时增加散热措施。"]
  else if includes issue "压力值偏低" then
    ["检查压力传感器是否正常工作，确保设备供电稳定。"]
  else if includes issue "压力值偏高" then
    ["检查压力传感器是否正常工作，确保设备不会因过压而损坏。"]
  else if includes issue "震动程度偏低" then
    ["检查震动传感器是否正常工作，确保传感器安装牢固。"]
  else if includes issue "震动程度偏高" then
    ["检查设备是否安装牢固，必要时增加减震措施，减少外部干扰。"]
  else if includes issue "振动强度偏高" then
    ["检查建筑结构是否稳定，必要时进行结构加固，减少振动源。"]
  else if includes issue "位移偏大" then
    ["检查建筑基础是否稳定，必要时进行地基加固或调整设备安装位置。"]
  else if includes issue "倾斜角度偏大" then
    ["检查建筑结构是否存在倾斜风险，必要时进行结构调整或加固。"]
  else if includes issue "异常率偏高" then
    ["检查传感器是否正常工作，数据传输是否稳定，必要时更换故障设备。"]
  else if includes issue "健康评分较低" then
    ["全面检查系统各组件，识别并解决潜在问题，提高系统整体健康水平。"]
  else if includes issue "健康评分呈下降趋势" then
    ["增加监控频率，密切关注系统状态变化，及时采取措施防止问题恶化。"]
  else [].

Definition generateRecommendations (issues : list string) : list string :=
  match issues with
  | [] =>
      ["系统运行正常，建议保持当前监控频率，定期生成健康评估报告以跟踪系统状态变化。"]
  | _ =>
      (flat_map recommendation_for issues
       ++ ["定期生成健康评估报告，跟踪系统状态变化趋势，建立预防性维护机制。"])%list
  end.

(** The issue statements of [detectIssues] for one metric. *)
Definition mean_issue_two_sided (st : MetricStats) (lo hi : Q)
    (low_label high_label u : string) : list string :=
  let m := parseFloat (st_mean st) in
  if num_lt m (Some lo) then
    [low_label ++ "，平均值为 " ++ Number_toString m ++ u
       ++ "，低于警告阈值 " ++ show lo ++ u]
  else if num_gt m (Some hi) then
    [high_label ++ "，平均值为 " ++ Number_toString m ++ u
       ++ "，高于警告阈值 " ++ show hi ++ u]
  else [].

Definition mean_issue_upper (st : MetricStats) (hi : Q)
    (high_label u : string) : list string :=
  let m := parseFloat (st_mean st) in
  if num_gt m (Some hi) then
    [high_label ++ "，平均值为 " ++ Number_toString m ++ u
       ++ "，高于警告阈值 " ++ show hi ++ u]
  else [].

Section ReportEngine.

(** [Math.sqrt], restricted to the non-negative arguments (variances) it
    receives here. *)
Variable Math_sqrt : Q -> Q.

Definition calculateStandardDeviation (values : list num) : num :=
  match values with
  | [] => Some 0
  | _ =>
      let mean := calculateMean values in
      let squaredDifferences :=
        map (fun value => let d := num_sub value mean in num_mul d d) values in
      let variance := calculateMean squaredDifferences in
      option_map Math_sqrt variance
  end.

Definition calculateCoefficientOfVariation (values : list num) : num :=
  match values with
  | [] => Some 0
  | _ =>
      let mean := calculateMean values in
      match mean with
      | Some m =>
          if Qeq_bool m 0 then Some 0
          else num_div (calculateStandardDeviation values) mean
      | None => num_div (calculateStandardDeviation values) mean
      end
  end.

Definition metric_stats (values : list num) (d_mean d_std : nat) (u : string)
    : MetricStats :=
  mkStats (toFixed d_mean (calculateMean values))
          (toFixed d_std (calculateStandardDeviation values))
          (toFixed d_mean (Math_min values))
          (toFixed d_mean (Math_max values))
          u.

Definition calculateKeyMetrics (s : State) : option KeyMetrics :=
  match processedDataHistory s with
  | [] => None
  | _ =>
      let temperatures := column Temperature s in
      let voltages := column Voltage s in
      let currents := column Current s in
      let vibrations := column Vibration s in
      let displacements := column Displacement s in
      let tilts := column Tilt s in
      Some (mkKeyMetrics
        (metric_stats temperatures 1 2 config.normalRanges.temperature.unit)
        (metric_stats voltages 2 3 config.normalRanges.voltage.unit)
        (metric_stats currents 1 2 config.normalRanges.current.unit)
        (metric_stats vibrations 3 4 config.normalRanges.vibration.unit)
        (metric_stats displacements 2 3 config.normalRanges.displacement.unit)
        (metric_stats tilts 2 3 config.normalRanges.tilt.unit))
  end.

(** The issues that [detectIssues] pushes before it asks for the health
    report: the six mean checks and the anomaly-rate check. *)
Definition issues_before_report (s : State) (keyMetrics : option KeyMetrics)
    : list string :=
  let of_metrics :=
    match keyMetrics with
    | None => []
    | Some km =>
        (mean_issue_two_sided (km_temperature km)
           config.warningThresholds.temperature.min
           config.warningThresholds.temperature.max
           "温度偏低" "温度偏高" "°C"
         ++ mean_issue_two_sided (km_voltage km)
           config.warningThresholds.voltage.min
           config.warningThresholds.voltage.max
           "压力值偏低" "压力值偏高" "G"
         ++ mean_issue_two_sided (km_current km)
           config.warningThresholds.current.min
           config.warningThresholds.current.max
           "震动程度偏低" "震动程度偏高" "Z"
         ++ mean_issue_upper (km_vibration km)
           config.warningThresholds.vibration.max "振动强度偏高" "g"
         ++ mean_issue_upper (km_displacement km)
           config.warningThresholds.displacement.max "位移偏大" "mm"
         ++ mean_issue_upper (km_tilt km)
           config.warningThresholds.tilt.max "倾斜角度偏大" "°")%list
    end in
  let anomalyRate :=
    toFixed 2
      (num_mul (num_div (num_of_nat (List.length (anomalyLog s)))
                        (num_of_nat (List.length (processedDataHistory s))))
               (Some 100)) in
  List.app of_metrics
    (if num_gt (parseFloat anomalyRate) (Some 5) then
       ["异常率偏高，达到 " ++ fx_text anomalyRate ++ "%，超过5%的阈值"]
     else []).

(** The issues pushed once the health report is at hand. *)
Definition issues_after_report (healthReport : HealthReport) : list string :=
  let current := hr_current (hr_healthScore healthReport) in
  let trend := numtext_value (hr_trend (hr_healthScore healthReport)) in
  List.app
    (if (current <? 80)%Z then
       ["当前健康评分较低，为 " ++ show_Z current ++ "/100，建议检查系统状态"]
     else [])
    (if num_lt trend (Some (-0.5)) then
       ["健康评分呈下降趋势，每分钟下降 " ++ Number_toString (Math_abs trend)
          ++ " 分，建议密切关注"]
     else []).

Definition duration_text (s : State) : string :=
  let stamps := map pr_timestamp (processedDataHistory s) in
  let startTime := hd 0%Z stamps in
  let endTime := last stamps 0%Z in
  let durationMinutes := Math_round (inject_Z (endTime - startTime) / 60000) in
  if (durationMinutes <? 60)%Z then show_Z durationMinutes ++ "分钟"
  else show_Z (durationMinutes / 60) ++ "小时"
         ++ show_Z (durationMinutes mod 60) ++ "分钟".

(** The health trend over the ten newest entries. *)
Definition health_trend (s : State) : numtext :=
  let healthScores := map pr_healthScore (processedDataHistory s) in
  let stamps := map pr_timestamp (processedDataHistory s) in
  let n := List.length healthScores in
  if (10 <=? n)%nat then
    let firstScore := nth (n - 10) healthScores 0%Z in
    let lastScore := last healthScores 0%Z in
    let timeDiff :=
      inject_Z (last stamps 0%Z - nth (n - 10) stamps 0%Z) / 60000 in
    if Qlt_bool 0 timeDiff then
      IsText (toFixed 2 (Some (inject_Z (lastScore - firstScore) / timeDiff)))
    else IsNumber (Some 0)
  else IsNumber (Some 0).

(** [generateHealthReport] and [detectIssues] call each other.  [depth] is
    the number of stack frames still available: a call with none left
    raises [RangeError]. *)
Fixpoint generateHealthReport (depth : nat) (s : State) : outcome HealthReport :=
  match depth with
  | O => Throws RangeError
  | S depth' =>
      if (List.length (processedDataHistory s) <? 10)%nat then
        Returns insufficientHealthReport
      else
        let healthScores := map pr_healthScore (processedDataHistory s) in
        let currentHealthScore := last healthScores 0%Z in
        let avgHealthScore :=
          num_div (num_of_Z (fold_left Z.add healthScores 0%Z))
                  (num_of_nat (List.length healthScores)) in
        let healthTrend := health_trend s in
        let healthStatus := determineHealthStatus currentHealthScore in
        let anomalyCount := List.length (anomalyLog s) in
        let anomalyRate :=
          toFixed 2
            (num_mul (num_div (num_of_nat anomalyCount)
                        (num_of_nat (List.length (processedDataHistory s))))
                     (Some 100)) in
        let keyMetrics := calculateKeyMetrics s in
        issues <- detectIssues depth' s keyMetrics ;;
        let recommendations := generateRecommendations issues in
        Returns
          (mkHealthReport (duration_text s)
             (mkSummary currentHealthScore avgHealthScore healthTrend
                healthStatus)
             (mkAnomalyStats anomalyCount (IsText anomalyRate))
             keyMetrics issues recommendations)
  end
with detectIssues (depth : nat) (s : State) (keyMetrics : option KeyMetrics)
    : outcome (list string) :=
  match depth with
  | O => Throws RangeError
  | S depth' =>
      let issues := issues_before_report s keyMetrics in
      healthReport <- generateHealthReport depth' s ;;
      Returns (issues ++ issues_after_report healthReport)%list
  end.

(** *** Data quality *)

Record QualityMetric : Type := mkQuality { qm_value : string; qm_score : znum }.

Record QualityLevel : Type := mkLevel { lv_name : string; lv_color : string }.

Record QualityMetrics : Type := mkQualityMetrics {
  m_completeness : QualityMetric;
  m_accuracy : QualityMetric;
  m_stability : QualityMetric
}.

Record DataQualityReport : Type := mkQualityReport {
  dataQualityScore : znum;
  qualityLevel : QualityLevel;
  metrics : option QualityMetrics;
  dq_recommendations : list string
}.

Definition insufficientDataQualityReport : DataQualityReport :=
  mkQualityReport (Some 0%Z) (mkLevel "数据不足" "bg-gray-500") None
    ["数据不足，无法生成数据质量报告"].

(** [(count / history.length * 100).toFixed(1)] and the score rounded and
    clamped from its text. *)
Definition percentage_metric (count total : nat) : QualityMetric :=
  let percentage :=
    toFixed 1 (num_mul (num_div (num_of_nat count) (num_of_nat total))
                       (Some 100)) in
  let score :=
    option_map (fun a => Z.min 100 (Z.max 0 a))
               (num_round (parseFloat percentage)) in
  mkQuality (fx_text percentage ++ "%") score.

(** The [for (const item of processedDataHistory)] loops: a counter bumped
    on the entries that pass [test]. *)
Fixpoint count_loop {A : Type} (test : A -> bool) (items : list A)
    (counter : nat) : nat :=
  match items with
  | [] => counter
  | item :: rest =>
      count_loop test rest (if test item then S counter else counter)
  end.

Definition calculateDataCompleteness (s : State) : QualityMetric :=
  match processedDataHistory s with
  | [] => mkQuality "0%" (Some 0%Z)
  | _ =>
      let completeCount :=
        count_loop (fun item => validateDataCompleteness (pr_data item))
          (processedDataHistory s) 0 in
      percentage_metric completeCount (List.length (processedDataHistory s))
  end.

Definition calculateDataAccuracy (s : State) : QualityMetric :=
  match processedDataHistory s with
  | [] => mkQuality "0%" (Some 0%Z)
  | _ =>
      let accurateCount :=
        count_loop (fun item => validateDataAccuracy s (pr_data item))
          (processedDataHistory s) 0 in
      percentage_metric accurateCount (List.length (processedDataHistory s))
  end.

Definition calculateDataStability (s : State) : QualityMetric :=
  if (List.length (processedDataHistory s) <? 10)%nat then
    mkQuality "0%" (Some 0%Z)
  else
    let tempCV := calculateCoefficientOfVariation (column Temperature s) in
    let voltageCV := calculateCoefficientOfVariation (column Voltage s) in
    let currentCV := calculateCoefficientOfVariation (column Current s) in
    let vibrationCV := calculateCoefficientOfVariation (column Vibration s) in
    let displacementCV :=
      calculateCoefficientOfVariation (column Displacement s) in
    let tiltCV := calculateCoefficientOfVariation (column Tilt s) in
    let avgCV :=
      num_div
        (num_add (num_add (num_add (num_add (num_add tempCV voltageCV)
                                      currentCV) vibrationCV)
                    displacementCV) tiltCV)
        (Some 6) in
    let maxCV := Some 0.1 in
    let stabilityScore :=
      num_round
        (num_mul (num_sub (Some 1) (num_min (num_div avgCV maxCV) (Some 1)))
                 (Some 100)) in
    let stabilityScore := clamp_0_100 stabilityScore in
    let stabilityPercentage :=
      toFixed 1 (option_map inject_Z stabilityScore) in
    mkQuality (fx_text stabilityPercentage ++ "%") stabilityScore.

Definition generateDataQualityRecommendations
    (completeness accuracy stability : QualityMetric) : list string :=
  let below (m : QualityMetric) (threshold : Q) :=
    num_lt (option_map inject_Z (qm_score m)) (Some threshold) in
  let reaches (m : QualityMetric) (threshold : Q) :=
    num_ge (option_map inject_Z (qm_score m)) (Some threshold) in
  List.app
    (if below completeness config.dataQualityParams.completenessThreshold then
       ["数据完整性较低(" ++ qm_value completeness
          ++ ")，建议检查传感器连接是否稳定，数据采集程序是否正常运行，确保所有必要数据字段都能正确采集。"]
     else [])
    (List.app
       (if below accuracy config.dataQualityParams.accuracyThreshold then
          ["数据准确性较低(" ++ qm_value accuracy
             ++ ")，建议校准传感器，检查数据传输过程中是否存在干扰，确保采集的数据能够准确反映实际情况。"]
        else [])
       (List.app
          (if below stability config.dataQualityParams.stabilityThreshold then
             ["数据稳定性较低(" ++ qm_value stability
                ++ ")，建议检查传感器安装是否牢固，环境是否存在较大波动，必要时调整采样频率或增加滤波算法。"]
           else [])
          (if reaches completeness
                config.dataQualityParams.completenessThreshold
              && reaches accuracy config.dataQualityParams.accuracyThreshold
              && reaches stability config.dataQualityParams.stabilityThreshold
           then ["数据质量良好，所有指标均达到要求，建议保持当前的数据采集和处理策略。"]
           else []))).

Definition generateDataQualityReport (s : State) : DataQualityReport :=
  if (List.length (processedDataHistory s) <? 10)%nat then
    insufficientDataQualityReport
  else
    let completeness := calculateDataCompleteness s in
    let accuracy := calculateDataAccuracy s in
    let stability := calculateDataStability s in
    let sum :=
      match qm_score completeness, qm_score accuracy, qm_score stability with
      | Some c, Some a, Some t => Some (inject_Z (c + a + t))
      | _, _, _ => NaN
      end in
    let dataQualityScore := num_round (num_div sum (Some 3)) in
    let qualityLevel :=
      if znum_ge dataQualityScore 90 then mkLevel "优秀" "bg-green-500"
      else if znum_ge dataQualityScore 80 then mkLevel "良好" "bg-green-400"
      else if znum_ge dataQualityScore 70 then mkLevel "一般" "bg-blue-400"
      else if znum_ge dataQualityScore 60 then mkLevel "较差" "bg-yellow-500"
      else mkLevel "差" "bg-red-500" in
    let recommendations :=
      generateDataQualityRecommendations completeness accuracy stability in
    mkQualityReport dataQualityScore qualityLevel
      (Some (mkQualityMetrics completeness accuracy stability))
      recommendations.

End ReportEngine.

(** ** Vocabulary of the properties *)

Definition within_absolute_bounds (data : Reading) : bool :=
  negb (out_of_range (temperature data) (-50) 150)
  && negb (out_of_range (voltage data) 0 10)
  && negb (out_of_range (current data) 0 1000)
  && negb (out_of_range (vibration data) 0 1)
  && negb (out_of_range (displacement data) 0 10)
  && negb (out_of_range (tilt data) 0 90).

Definition ten_normal_inputs : list (Z * Reading) :=
  map (fun k => (k, normal_reading k))
      [1000; 61000; 121000; 181000; 241000; 301000; 361000; 421000; 481000;
       541000]%Z.

Definition absent_reading (ts : option Z) : Reading :=
  mkReading ts VUndef VUndef VUndef VUndef VUndef VUndef.

Definition null_temperature_reading : Reading :=
  mkReading (Some 1%Z) VNull (VNum 3.3) (VNum 150) (VNum 0.05) (VNum 0.5)
    (VNum 2).

(** The statement of [detectAnomaly] that looks at metric [m]. *)
Definition metric_check (m : metric) (data : Reading) (result : AnomalyResult)
    : outcome AnomalyResult :=
  match m with
  | Temperature =>
      check_two_sided (temperature data)
        config.anomalyThresholds.temperature.min
        config.anomalyThresholds.temperature.max
        1 "温度过低" "温度过高" "°C" result
  | Voltage =>
      check_two_sided (voltage data)
        config.anomalyThresholds.voltage.min
        config.anomalyThresholds.voltage.max
        2 "压力值过低" "压力值过高" "G" result
  | Current =>
      check_two_sided (current data)
        config.anomalyThresholds.current.min
        config.anomalyThresholds.current.max
        1 "震动程度过低" "震动程度过高" "Z" result
  | Vibration =>
      check_upper (vibration data)
        config.anomalyThresholds.vibration.max
        3 "振动强度过高" "g" result
  | Displacement =>
      check_upper (displacement data)
        config.anomalyThresholds.displacement.max
        2 "位移过大" "mm" result
  | Tilt =>
      check_upper (tilt data)
        config.anomalyThresholds.tilt.max
        2 "倾斜角度过大" "°" result
  end.

(** Metric [m] lies beyond its anomaly threshold. *)
Definition exceeds (data : Reading) (m : metric) : bool :=
  match m with
  | Temperature =>
      js_lt (temperature data) config.anomalyThresholds.temperature.min
      || js_gt (temperature data) config.anomalyThresholds.temperature.max
  | Voltage =>
      js_lt (voltage data) config.anomalyThresholds.voltage.min
      || js_gt (voltage data) config.anomalyThresholds.voltage.max
  | Current =>
      js_lt (current data) config.anomalyThresholds.current.min
      || js_gt (current data) config.anomalyThresholds.current.max
  | Vibration => js_gt (vibration data) config.anomalyThresholds.vibration.max
  | Displacement =>
      js_gt (displacement data) config.anomalyThresholds.displacement.max
  | Tilt => js_gt (tilt data) config.anomalyThresholds.tilt.max
  end.

(** The reason text that the check of [m], run on its own, leaves in
    [result.reason]. *)
Definition reason_text (data : Reading) (m : metric) : string :=
  match metric_check m data (mkAnomalyResult false "") with
  | Returns r => ar_reason r
  | Throws _ => ""
  end.

(** None of the two-sided metrics is [null]. *)
Definition no_null_two_sided (data : Reading) : Prop :=
  temperature data <> VNull /\ voltage data <> VNull /\ current data <> VNull.

Definition count_exceeding (data : Reading) : nat :=
  List.length (filter (exceeds data) requiredFields).

Definition first_exceeding (data : Reading) : option metric :=
  find (exceeds data) requiredFields.

Definition last_exceeding (data : Reading) : option metric :=
  find (exceeds data) (rev requiredFields).

(** First match wins: the detector answers with the reason of the first
    metric, in evaluation order, that is beyond its threshold. *)
Definition first_match_wins (data : Reading) : Prop :=
  exists m,
    first_exceeding data = Some m
    /\ detectAnomaly data = Returns (mkAnomalyResult true (reason_text data m)).

Definition hot_and_tilted : Reading := reading 1 40 3.3 150 0.05 0.5 10.

Definition before_jump : Reading := reading 1000 25 3.3 150 0.05 0.5 2.
Definition after_jump : Reading := reading 2000 35 3.3 150 0.05 0.5 2.

Definition vibration_at_bound : Reading := reading 1 25 3.3 150 0.09 0.5 2.
Definition vibration_past_bound : Reading := reading 1 25 3.3 150 0.095 0.5 2.
Definition displacement_at_bound : Reading := reading 1 25 3.3 150 0.05 0.9 2.
Definition tilt_at_bound : Reading := reading 1 25 3.3 150 0.05 0.5 4.5.
Definition temperature_at_bound : Reading := reading 1 35 3.3 150 0.05 0.5 2.

(** Appending to a log of at most [limit] entries: below the cap the entry
    is added; at the cap the oldest entry goes and the others keep their
    order. *)
Definition fifo_append {A : Type} (limit : nat) (log : list A) (entry : A)
    : list A :=
  if (List.length log <? limit)%nat then (log ++ [entry])%list
  else (tl log ++ [entry])%list.

Definition bounded (s : State) : Prop :=
  (List.length (processedDataHistory s) <= config.historyLimit)%nat
  /\ (List.length (healthHistory s) <= config.historyLimit)%nat
  /\ (List.length (anomalyLog s) <= config.historyLimit)%nat.

(** Following the specification's wording: the rate-of-change check of a
    reading against a given previous reading, with the six ceilings. *)
Definition spec_rate_ok (data previous : Reading) : bool :=
  forallb
    (fun mc : metric * Q =>
       negb (num_gt
               (Math_abs (num_sub (ToNumber (field data (fst mc)))
                                  (ToNumber (field previous (fst mc)))))
               (Some (snd mc))))
    [(Temperature, 5); (Voltage, 0.5); (Current, 50); (Vibration, 0.05);
     (Displacement, 0.5); (Tilt, 2)].

(** Following the specification's wording: [validate(reading, previous)],
    absolute bounds plus rate of change. *)
Definition spec_validate (data : Reading) (previous : option Reading) : bool :=
  within_absolute_bounds data
  && match previous with
     | Some p => spec_rate_ok data p
     | None => true
     end.

(** Following the specification's wording: the number of retained records
    that pass the check against their own predecessor in the window (the
    oldest one has none). *)
Fixpoint spec_accurate_count (previous : option Reading)
    (items : list ProcessedRecord) : nat :=
  match items with
  | [] => 0
  | item :: rest =>
      ((if spec_validate (pr_data item) previous then 1 else 0)
       + spec_accurate_count (Some (pr_data item)) rest)%nat
  end.

Definition spec_calculateDataAccuracy (s : State) : QualityMetric :=
  match processedDataHistory s with
  | [] => mkQuality "0%" (Some 0%Z)
  | _ =>
      percentage_metric (spec_accurate_count None (processedDataHistory s))
        (List.length (processedDataHistory s))
  end.

(** Ten readings one minute apart, the temperature stepping from 25 to 35
    between the first and the second and staying there. *)
Definition step_inputs : list (Z * Reading) :=
  (1000%Z, reading 1000 25 3.3 150 0.05 0.5 2)
  :: map (fun k => (k, reading k 35 3.3 150 0.05 0.5 2))
       [61000; 121000; 181000; 241000; 301000; 361000; 421000; 481000;
        541000]%Z.

(** The cap at work: 1001 normal readings, stamped 1, 2, ..., 1001. *)
Definition many_inputs (n : nat) : list (Z * Reading) :=
  map (fun k => (Z.of_nat k, normal_reading (Z.of_nat k))) (seq 1 n).

(** * Properties *)

(** ** Worked readings *)

Example normal_reading_scores_100 :
  fst (receiveData 1 (normal_reading 1) initial)
  = Returns (mkResult (normal_reading 1) true true false "" 100
               (mkStatus "优秀" "bg-green-500")).
Proof. vm_compute. reflexivity. Qed.

Example hot_reading_reason :
  option_map (fun r => (isAnomaly r, anomalyReason r, healthScore r))
    (match fst (receiveData 1 (reading 1 40 3.3 150 0.05 0.5 2) initial) with
     | Returns r => Some r | Throws _ => None end)
  = Some (true, "温度过高 (40.0°C > 35°C)", 80%Z).
Proof. vm_compute. reflexivity. Qed.

(** ** Validator: what the rate-of-change part amounts to *)

Lemma jump_exceeds_false (data : Reading) (lastData : ProcessedRecord)
    (m : metric) (ceiling : Q) :
  jump_exceeds data lastData m ceiling = false.
Proof.
  unfold jump_exceeds, entry_property. simpl.
  destruct (ToNumber (field data m)); reflexivity.
Qed.

Lemma validateDataAccuracy_absolute_only (s : State) (data : Reading) :
  validateDataAccuracy s data = within_absolute_bounds data.
Proof.
  unfold validateDataAccuracy, within_absolute_bounds.
  destruct (out_of_range (temperature data) (-50) 150); [reflexivity|].
  destruct (out_of_range (voltage data) 0 10); [reflexivity|].
  destruct (out_of_range (current data) 0 1000); [reflexivity|].
  destruct (out_of_range (vibration data) 0 1); [reflexivity|].
  destruct (out_of_range (displacement data) 0 10); [reflexivity|].
  destruct (out_of_range (tilt data) 0 90); [reflexivity|].
  destruct (last_entry (processedDataHistory s)); [|reflexivity].
  rewrite !jump_exceeds_false. reflexivity.
Qed.

(** ** Health report: the mutual recursion never bottoms out *)

Lemma report_recursion_exhausts_stack (Math_sqrt : Q -> Q) (s : State) :
  (10 <= List.length (processedDataHistory s))%nat ->
  forall depth,
    generateHealthReport Math_sqrt depth s = Throws RangeError
    /\ forall keyMetrics,
         detectIssues Math_sqrt depth s keyMetrics = Throws RangeError.
Proof.
  intros Hlen depth.
  assert (Hguard : (List.length (processedDataHistory s) <? 10)%nat = false)
    by (apply Nat.ltb_ge; exact Hlen).
  induction depth as [|depth [IHg IHd]].
  - split; [reflexivity | intros; reflexivity].
  - split.
    + simpl. rewrite Hguard. rewrite IHd. reflexivity.
    + intros keyMetrics. simpl. rewrite IHg. reflexivity.
Qed.

(** C1 (the code departs from the claim).  After ten normal readings, each
    scored 100 and all ten retained, [generateHealthReport] does not return a
    report: it calls [detectIssues], which calls [generateHealthReport] again
    on the same unchanged history, without end; whatever number of stack
    frames is available, the call ends in [RangeError].  With only the first
    nine readings the insufficient-data report is returned. *)
Theorem health_report_overflows_after_ten_normal_readings :
  let s10 := ingest_all ten_normal_inputs initial in
  let s9 := ingest_all (firstn 9 ten_normal_inputs) initial in
  map pr_healthScore (processedDataHistory s10)
    = [100; 100; 100; 100; 100; 100; 100; 100; 100; 100]%Z
  /\ (forall Math_sqrt depth,
        generateHealthReport Math_sqrt depth s10 = Throws RangeError)
  /\ (forall Math_sqrt depth,
        generateHealthReport Math_sqrt (S depth) s9
        = Returns insufficientHealthReport).
Proof.
  cbv zeta. split; [vm_compute; reflexivity|]. split.
  - intros Math_sqrt depth.
    apply report_recursion_exhausts_stack.
    apply Nat.leb_le. vm_compute. reflexivity.
  - intros Math_sqrt depth. reflexivity.
Qed.

(** ** Insufficient history *)

(** C9.  With fewer than ten retained processed records, whatever the rest
    of the state, [generateHealthReport] (given a stack frame to run in) and
    [generateDataQualityReport] return the insufficient-data reports: zeroed
    scores, the status or level "数据不足", no metrics, and the single
    issue and recommendation that say so. *)
Theorem insufficient_history_reports (Math_sqrt : Q -> Q) (depth : nat)
    (s : State) :
  (List.length (processedDataHistory s) < 10)%nat ->
  generateHealthReport Math_sqrt (S depth) s
  = Returns
      (mkHealthReport "不足"
         (mkSummary 0 (Some 0) (IsNumber (Some 0))
            (mkStatus "数据不足" "bg-gray-500"))
         (mkAnomalyStats 0 (IsNumber (Some 0)))
         None
         ["数据不足，无法生成健康评估报告"]
         ["请收集更多数据后再试"])
  /\ generateDataQualityReport Math_sqrt s
     = mkQualityReport (Some 0%Z) (mkLevel "数据不足" "bg-gray-500") None
         ["数据不足，无法生成数据质量报告"].
Proof.
  intros Hlen. apply Nat.ltb_lt in Hlen.
  unfold generateDataQualityReport. simpl. rewrite Hlen.
  split; reflexivity.
Qed.

Lemma insufficient_history_reports_witness :
  (List.length
     (processedDataHistory (ingest_all (firstn 9 ten_normal_inputs) initial))
   < 10)%nat
  /\ generateHealthReport (fun q => q) 1
       (ingest_all (firstn 9 ten_normal_inputs) initial)
     = Returns insufficientHealthReport
  /\ generateDataQualityReport (fun q => q)
       (ingest_all (firstn 9 ten_normal_inputs) initial)
     = insufficientDataQualityReport.
Proof.
  assert (H : (List.length
                 (processedDataHistory
                    (ingest_all (firstn 9 ten_normal_inputs) initial))
               < 10)%nat)
    by (apply Nat.ltb_lt; vm_compute; reflexivity).
  split; [exact H|].
  exact (insufficient_history_reports (fun q => q) 0
           (ingest_all (firstn 9 ten_normal_inputs) initial) H).
Defined.

(** ** Readings with absent or null fields *)

(** C10.  A reading whose six metric fields are all absent, ingested in any
    state at any time, comes back with health score 0, not flagged
    anomalous, with the empty reason, and incomplete. *)
Theorem absent_reading_scores_zero_unflagged (now : Z) (ts : option Z)
    (s : State) :
  fst (receiveData now (absent_reading ts) s)
  = Returns
      (mkResult (absent_reading ts) false true false "" 0
         (mkStatus "危险" "bg-red-500"))
  /\ metricScore (absent_reading ts) Temperature = 0
  /\ metricScore (absent_reading ts) Voltage = 0
  /\ metricScore (absent_reading ts) Current = 0
  /\ metricScore (absent_reading ts) Vibration = 0
  /\ metricScore (absent_reading ts) Displacement = 0
  /\ metricScore (absent_reading ts) Tilt = 0.
Proof.
  split; [|repeat split; reflexivity].
  unfold receiveData.
  rewrite validateDataAccuracy_absolute_only.
  reflexivity.
Qed.

(** C4 (the code departs from the claim).  A reading whose temperature is
    [null] and whose other fields are normal makes [receiveData] raise
    [TypeError]: [null < 15] holds ([null] converts to zero), so the
    low-temperature branch runs and calls [toFixed] on [null].  Nothing is
    stored.  The completeness check itself does report the reading as
    incomplete. *)
Theorem null_temperature_raises (now : Z) (s : State) :
  receiveData now null_temperature_reading s = (Throws TypeError, s)
  /\ validateDataCompleteness null_temperature_reading = false.
Proof. split; reflexivity. Qed.

(** *** The detector as six independent checks *)

Lemma detectAnomaly_checks (data : Reading) :
  detectAnomaly data
  = (r <- metric_check Temperature data (mkAnomalyResult false "") ;;
     r <- metric_check Voltage data r ;;
     r <- metric_check Current data r ;;
     r <- metric_check Vibration data r ;;
     r <- metric_check Displacement data r ;;
     r <- metric_check Tilt data r ;;
     Returns r).
Proof. reflexivity. Qed.

Lemma check_two_sided_step (v : jsval) (lo hi : Q) (digits : nat)
    (low high u : string) (result : AnomalyResult) :
  v <> VNull ->
  check_two_sided v lo hi digits low high u result
  = Returns
      (if js_lt v lo || js_gt v hi then
         mkAnomalyResult true
           (match check_two_sided v lo hi digits low high u
                    (mkAnomalyResult false "") with
            | Returns r => ar_reason r
            | Throws _ => ""
            end)
       else result).
Proof.
  intros Hv. unfold check_two_sided.
  destruct v as [| | |q]; try congruence; try reflexivity.
  destruct (js_lt (VNum q) lo); [reflexivity|].
  destruct (js_gt (VNum q) hi); reflexivity.
Qed.

Lemma check_upper_step (v : jsval) (hi : Q) (digits : nat)
    (high u : string) (result : AnomalyResult) :
  js_gt VNull hi = false ->
  check_upper v hi digits high u result
  = Returns
      (if js_gt v hi then
         mkAnomalyResult true
           (match check_upper v hi digits high u (mkAnomalyResult false "") with
            | Returns r => ar_reason r
            | Throws _ => ""
            end)
       else result).
Proof.
  intros Hnull. unfold check_upper.
  destruct v as [| | |q]; try reflexivity.
  - rewrite Hnull. reflexivity.
  - destruct (js_gt (VNum q) hi); reflexivity.
Qed.

Lemma metric_check_step (m : metric) (data : Reading) (result : AnomalyResult) :
  no_null_two_sided data ->
  metric_check m data result
  = Returns
      (if exceeds data m then mkAnomalyResult true (reason_text data m)
       else result).
Proof.
  intros (Ht & Hv & Hc).
  destruct m; unfold metric_check, exceeds, reason_text;
    first [ apply check_two_sided_step; assumption
          | apply check_upper_step; reflexivity ].
Qed.

(** Each check overwrites what the checks before it left: the result is
    that of the LAST metric beyond its threshold. *)
Lemma detectAnomaly_last_wins (data : Reading) :
  no_null_two_sided data ->
  detectAnomaly data
  = Returns
      (match find (exceeds data) (rev requiredFields) with
       | Some m => mkAnomalyResult true (reason_text data m)
       | None => mkAnomalyResult false ""
       end).
Proof.
  intros Hnn. rewrite detectAnomaly_checks.
  rewrite !(metric_check_step _ _ _ Hnn). cbn [bind].
  rewrite !(metric_check_step _ _ _ Hnn). cbn [bind].
  rewrite !(metric_check_step _ _ _ Hnn). cbn [bind].
  rewrite !(metric_check_step _ _ _ Hnn). cbn [bind].
  rewrite !(metric_check_step _ _ _ Hnn). cbn [bind].
  rewrite !(metric_check_step _ _ _ Hnn). cbn [bind].
  cbn [requiredFields rev app find].
  destruct (exceeds data Tilt); [reflexivity|].
  destruct (exceeds data Displacement); [reflexivity|].
  destruct (exceeds data Vibration); [reflexivity|].
  destruct (exceeds data Current); [reflexivity|].
  destruct (exceeds data Voltage); [reflexivity|].
  destruct (exceeds data Temperature); reflexivity.
Qed.

(** What does hold: a reading none of whose two-sided metrics is [null]
    is processed to the end, absent fields included. *)
Lemma receiveData_returns_without_null (now : Z) (rawData : Reading)
    (s : State) :
  no_null_two_sided rawData ->
  exists result, fst (receiveData now rawData s) = Returns result
    /\ isComplete result = validateDataCompleteness rawData.
Proof.
  intros Hnn. unfold receiveData.
  rewrite (detectAnomaly_last_wins rawData Hnn). simpl.
  eexists. split; reflexivity.
Qed.

(** A two-sided check either passes a result on or raises [TypeError]. *)
Lemma check_two_sided_outcome (v : jsval) (lo hi : Q) (digits : nat)
    (low high u : string) (result : AnomalyResult) :
  (exists r, check_two_sided v lo hi digits low high u result = Returns r)
  \/ check_two_sided v lo hi digits low high u result = Throws TypeError.
Proof.
  unfold check_two_sided.
  destruct (js_lt v lo); [|destruct (js_gt v hi)];
    destruct v; cbn [field_toFixed bind]; eauto.
Qed.

Ltac run_check :=
  match goal with
  | |- context [check_two_sided ?v ?lo ?hi ?d ?a ?b ?u ?r] =>
      destruct (check_two_sided_outcome v lo hi d a b u r) as [[? ->]| ->];
      cbn [bind]; [|reflexivity]
  end.

(** And conversely: a [null] temperature, voltage or current makes the
    call raise, leaving the state as it was. *)
Lemma receiveData_raises_on_null (now : Z) (rawData : Reading) (s : State) :
  temperature rawData = VNull
  \/ voltage rawData = VNull
  \/ current rawData = VNull ->
  receiveData now rawData s = (Throws TypeError, s).
Proof.
  intros H. unfold receiveData.
  assert (Hd : detectAnomaly rawData = Throws TypeError).
  { unfold detectAnomaly. destruct H as [H|[H|H]].
    - rewrite H. reflexivity.
    - run_check. rewrite H. reflexivity.
    - run_check. run_check. rewrite H. reflexivity. }
  rewrite Hd. reflexivity.
Qed.

(** *** Which reason is reported *)

(** C3, as stated, fails: with temperature 40 (above 35) and tilt 10 (above
    4.5) two metrics are beyond their thresholds, the first of them is the
    temperature, and the reported reason is the tilt's. *)
Lemma first_match_wins_refuted :
  (2 <= count_exceeding hot_and_tilted)%nat
  /\ first_exceeding hot_and_tilted = Some Temperature
  /\ reason_text hot_and_tilted Temperature = "温度过高 (40.0°C > 35°C)"
  /\ detectAnomaly hot_and_tilted
     = Returns (mkAnomalyResult true "倾斜角度过大 (10.00° > 4.5°)")
  /\ ~ first_match_wins hot_and_tilted.
Proof.
  split; [apply Nat.leb_le; vm_compute; reflexivity|].
  split; [vm_compute; reflexivity|].
  split; [vm_compute; reflexivity|].
  split; [vm_compute; reflexivity|].
  intros [m [Hfirst Hdetect]].
  vm_compute in Hfirst. injection Hfirst as <-.
  vm_compute in Hdetect. discriminate Hdetect.
Qed.

(** C3, amended.  For a reading none of whose two-sided metrics is [null]
    and in which two or more metrics are beyond their anomaly thresholds,
    [detectAnomaly] reports [isAnomaly = true] with one reason: that of the
    LAST such metric in the order temperature, voltage, current, vibration,
    displacement, tilt, which differs from the first such metric. *)
Theorem last_match_wins (data : Reading) :
  no_null_two_sided data ->
  (2 <= count_exceeding data)%nat ->
  exists first_m last_m,
    first_exceeding data = Some first_m
    /\ last_exceeding data = Some last_m
    /\ first_m <> last_m
    /\ detectAnomaly data
       = Returns (mkAnomalyResult true (reason_text data last_m)).
Proof.
  intros Hnn Hcount.
  rewrite (detectAnomaly_last_wins data Hnn).
  unfold count_exceeding, first_exceeding, last_exceeding in *.
  cbn [requiredFields filter find rev app] in *.
  destruct (exceeds data Temperature), (exceeds data Voltage),
    (exceeds data Current), (exceeds data Vibration),
    (exceeds data Displacement), (exceeds data Tilt);
    cbn [List.length] in Hcount;
    try (exfalso; lia);
    do 2 eexists; (split; [reflexivity|]); (split; [reflexivity|]);
    (split; [discriminate|reflexivity]).
Qed.

Lemma last_match_wins_witness :
  exists first_m last_m,
    first_exceeding hot_and_tilted = Some first_m
    /\ last_exceeding hot_and_tilted = Some last_m
    /\ first_m <> last_m
    /\ detectAnomaly hot_and_tilted
       = Returns (mkAnomalyResult true (reason_text hot_and_tilted last_m)).
Proof.
  apply (last_match_wins hot_and_tilted).
  - repeat split; discriminate.
  - apply Nat.leb_le. vm_compute. reflexivity.
Defined.

(** ** Rate of change *)

(** C2 (the code departs from the claim).  Two consecutive readings, both
    within the absolute bounds, whose temperature jumps from 25 to 35: the
    second result has [isAccurate = true].  The comparison reads the metric
    on the history entry instead of on the reading stored under its [data]
    property, so every difference is NaN and no ceiling is ever exceeded. *)
Theorem temperature_jump_passes_as_accurate :
  let s1 := snd (receiveData 1000 before_jump initial) in
  within_absolute_bounds before_jump = true
  /\ within_absolute_bounds after_jump = true
  /\ option_map pr_data (last_entry (processedDataHistory s1))
     = Some before_jump
  /\ num_gt (Math_abs (num_sub (ToNumber (temperature after_jump))
                               (ToNumber (temperature before_jump))))
            (Some 5) = true
  /\ validateDataAccuracy s1 after_jump = true
  /\ exists r, fst (receiveData 2000 after_jump s1) = Returns r
               /\ isAccurate r = true.
Proof.
  cbv zeta. repeat split; try (vm_compute; reflexivity).
  eexists. split; vm_compute; reflexivity.
Qed.

(** ** Scores at the anomaly boundary *)

Lemma calculateMetricScore_at_anomalyMin
    (normalMin normalMax anomalyMin anomalyMax : Q) :
  anomalyMin < normalMin -> normalMin <= normalMax -> normalMax < anomalyMax ->
  calculateMetricScore (VNum anomalyMin) normalMin normalMax anomalyMin
    anomalyMax == 0.
Proof.
  intros H1 H2 H3. unfold calculateMetricScore, js_ge, js_le, num_ge, num_le.
  cbn [ToNumber].
  assert (E1 : Qle_bool normalMin anomalyMin = false).
  { destruct (Qle_bool normalMin anomalyMin) eqn:E; [|reflexivity].
    apply Qle_bool_iff in E. exfalso. apply (Qlt_not_le _ _ H1 E). }
  assert (E2 : Qle_bool anomalyMin anomalyMin = true)
    by (apply Qle_bool_iff; apply Qle_refl).
  assert (E3 : Qle_bool anomalyMin anomalyMax = true).
  { apply Qle_bool_iff. apply Qlt_le_weak.
    apply Qlt_le_trans with normalMin; [exact H1|].
    apply Qle_trans with normalMax; [exact H2|apply Qlt_le_weak; exact H3]. }
  rewrite E1, E2, E3. cbn [andb]. unfold Qlt_bool. rewrite E1. cbn [negb].
  assert (Hr : ~ normalMin - anomalyMin == 0).
  { intros Hz. lra. }
  field. exact Hr.
Qed.

Lemma calculateMetricScore_at_anomalyMax
    (normalMin normalMax anomalyMin anomalyMax : Q) :
  anomalyMin < normalMin -> normalMin <= normalMax -> normalMax < anomalyMax ->
  calculateMetricScore (VNum anomalyMax) normalMin normalMax anomalyMin
    anomalyMax == 0.
Proof.
  intros H1 H2 H3. unfold calculateMetricScore, js_ge, js_le, num_ge, num_le.
  cbn [ToNumber].
  assert (E1 : Qle_bool anomalyMax normalMax = false).
  { destruct (Qle_bool anomalyMax normalMax) eqn:E; [|reflexivity].
    apply Qle_bool_iff in E. exfalso. apply (Qlt_not_le _ _ H3 E). }
  assert (E2 : Qle_bool anomalyMax anomalyMax = true)
    by (apply Qle_bool_iff; apply Qle_refl).
  assert (E3 : Qle_bool anomalyMin anomalyMax = true).
  { apply Qle_bool_iff. apply Qlt_le_weak.
    apply Qlt_le_trans with normalMin; [exact H1|].
    apply Qle_trans with normalMax; [exact H2|apply Qlt_le_weak; exact H3]. }
  assert (E4 : Qle_bool normalMin anomalyMax = true).
  { apply Qle_bool_iff.
    apply Qle_trans with normalMax; [exact H2|apply Qlt_le_weak; exact H3]. }
  rewrite E1, E2, E3. rewrite andb_false_r. cbn [andb].
  unfold Qlt_bool. rewrite E4. cbn [negb].
  assert (Hr : ~ anomalyMax - normalMax == 0).
  { intros Hz. lra. }
  field. exact Hr.
Qed.

Lemma two_sided_bounds_score_zero :
  calculateMetricScore (VNum config.anomalyThresholds.temperature.min)
    config.normalRanges.temperature.min config.normalRanges.temperature.max
    config.anomalyThresholds.temperature.min
    config.anomalyThresholds.temperature.max == 0
  /\ calculateMetricScore (VNum config.anomalyThresholds.temperature.max)
       config.normalRanges.temperature.min config.normalRanges.temperature.max
       config.anomalyThresholds.temperature.min
       config.anomalyThresholds.temperature.max == 0
  /\ calculateMetricScore (VNum config.anomalyThresholds.voltage.min)
       config.normalRanges.voltage.min config.normalRanges.voltage.max
       config.anomalyThresholds.voltage.min
       config.anomalyThresholds.voltage.max == 0
  /\ calculateMetricScore (VNum config.anomalyThresholds.voltage.max)
       config.normalRanges.voltage.min config.normalRanges.voltage.max
       config.anomalyThresholds.voltage.min
       config.anomalyThresholds.voltage.max == 0
  /\ calculateMetricScore (VNum config.anomalyThresholds.current.min)
       config.normalRanges.current.min config.normalRanges.current.max
       config.anomalyThresholds.current.min
       config.anomalyThresholds.current.max == 0
  /\ calculateMetricScore (VNum config.anomalyThresholds.current.max)
       config.normalRanges.current.min config.normalRanges.current.max
       config.anomalyThresholds.current.min
       config.anomalyThresholds.current.max == 0.
Proof.
  repeat split;
    first [ apply calculateMetricScore_at_anomalyMin
          | apply calculateMetricScore_at_anomalyMax ];
    vm_compute; first [reflexivity | discriminate].
Qed.

(** The flag is strict: a number at a threshold is not beyond it. *)
Lemma js_gt_strict (q c : Q) : js_gt (VNum q) c = true <-> c < q.
Proof.
  unfold js_gt, num_gt, num_lt, Qlt_bool. cbn [ToNumber].
  rewrite negb_true_iff. split.
  - intros H. apply Qnot_le_lt. intros Hle.
    apply Qle_bool_iff in Hle. congruence.
  - intros H. destruct (Qle_bool q c) eqn:E; [|reflexivity].
    apply Qle_bool_iff in E. exfalso. apply (Qlt_not_le _ _ H E).
Qed.

Lemma js_lt_strict (q c : Q) : js_lt (VNum q) c = true <-> q < c.
Proof.
  unfold js_lt, num_lt, Qlt_bool. cbn [ToNumber].
  rewrite negb_true_iff. split.
  - intros H. apply Qnot_le_lt. intros Hle.
    apply Qle_bool_iff in Hle. congruence.
  - intros H. destruct (Qle_bool c q) eqn:E; [|reflexivity].
    apply Qle_bool_iff in E. exfalso. apply (Qlt_not_le _ _ H E).
Qed.

(** C6 (the code departs from the claim).  A reading whose vibration equals
    its anomaly threshold 0.09 gets the vibration score 100, not 0: the
    normal maximum 0.1 lies above the anomaly threshold, so the first test
    of [calculateUpperBoundScore] answers 100 and the interpolation is never
    reached; the same holds for displacement (0.9 against 1.0) and tilt (4.5
    against 5.0).  Vibration 0.095, strictly beyond the threshold, is flagged
    anomalous and still scores 100.  For the temperature the claim holds: at
    its threshold 35 the score is 0 and the reading is not flagged. *)
Theorem upper_bound_metrics_score_100_at_anomaly_bound :
  field vibration_at_bound Vibration
    = VNum config.anomalyThresholds.vibration.max
  /\ metricScore vibration_at_bound Vibration == 100
  /\ ~ metricScore vibration_at_bound Vibration == 0
  /\ exceeds vibration_at_bound Vibration = false
  /\ metricScore displacement_at_bound Displacement == 100
  /\ metricScore tilt_at_bound Tilt == 100
  /\ exceeds vibration_past_bound Vibration = true
  /\ metricScore vibration_past_bound Vibration == 100
  /\ fst (receiveData 1 vibration_past_bound initial)
     = Returns
         (mkResult vibration_past_bound true true true
            "振动强度过高 (0.095g > 0.09g)" 100
            (mkStatus "优秀" "bg-green-500"))
  /\ metricScore temperature_at_bound Temperature == 0
  /\ exceeds temperature_at_bound Temperature = false.
Proof.
  repeat split; try (vm_compute; reflexivity).
  vm_compute. discriminate.
Qed.

(** Where the score 100 at the threshold comes from: once the anomaly
    threshold is not above the normal maximum, the interpolation branch of
    [calculateUpperBoundScore] cannot be reached. *)
Lemma upper_bound_interpolation_dead (value : jsval) (normalMax anomalyMax : Q) :
  anomalyMax <= normalMax ->
  calculateUpperBoundScore value normalMax anomalyMax
  = if js_le value normalMax then 100 else 0.
Proof.
  intros Hc. unfold calculateUpperBoundScore.
  destruct (js_le value normalMax) eqn:E1; [reflexivity|].
  destruct (js_le value anomalyMax) eqn:E2; [|reflexivity].
  exfalso. unfold js_le, num_le in *.
  destruct (ToNumber value) as [v|]; [|discriminate E2].
  apply Qle_bool_iff in E2.
  assert (Hle : Qle_bool v normalMax = true)
    by (apply Qle_bool_iff; apply Qle_trans with anomalyMax; assumption).
  congruence.
Qed.

(** ** Range of the health score *)

Lemma Qle_bool_false (a b : Q) : Qle_bool a b = false -> b < a.
Proof.
  intros H. apply Qnot_le_lt. intros Hle.
  apply Qle_bool_iff in Hle. congruence.
Qed.

Lemma interpolation_range (distance range : Q) :
  0 < range -> 0 <= distance -> distance <= range ->
  0 <= 100 - (distance / range) * 100 <= 100.
Proof.
  intros Hr Hd Hdr.
  assert (H0 : 0 <= distance / range).
  { apply Qle_shift_div_l; [exact Hr|]. lra. }
  assert (H1 : distance / range <= 1).
  { apply Qle_shift_div_r; [exact Hr|]. lra. }
  split; lra.
Qed.

Lemma calculateMetricScore_range (value : jsval)
    (normalMin normalMax anomalyMin anomalyMax : Q) :
  anomalyMin < normalMin -> normalMax < anomalyMax ->
  0 <= calculateMetricScore value normalMin normalMax anomalyMin anomalyMax
    <= 100.
Proof.
  intros Hlo Hhi. unfold calculateMetricScore, js_ge, js_le, num_ge, num_le.
  destruct (ToNumber value) as [v|]; [|cbn [andb]; split; lra].
  destruct (Qle_bool normalMin v && Qle_bool v normalMax) eqn:E0;
    [split; lra|].
  destruct (Qle_bool anomalyMin v) eqn:E1; [|split; cbn [andb]; lra].
  destruct (Qle_bool v anomalyMax) eqn:E2; [|split; cbn [andb]; lra].
  cbn [andb]. apply Qle_bool_iff in E1. apply Qle_bool_iff in E2.
  unfold Qlt_bool.
  destruct (Qle_bool normalMin v) eqn:E3; cbn [negb].
  - destruct (Qle_bool v normalMax) eqn:E4; [discriminate E0|].
    apply Qle_bool_false in E4. apply interpolation_range; lra.
  - apply Qle_bool_false in E3. apply interpolation_range; lra.
Qed.

Lemma calculateUpperBoundScore_range (value : jsval) (normalMax anomalyMax : Q) :
  0 <= calculateUpperBoundScore value normalMax anomalyMax <= 100.
Proof.
  unfold calculateUpperBoundScore, js_le, num_le.
  destruct (ToNumber value) as [v|]; [|cbn [andb]; split; lra].
  destruct (Qle_bool v normalMax) eqn:E1; [split; lra|].
  destruct (Qle_bool v anomalyMax) eqn:E2; [|split; lra].
  apply Qle_bool_false in E1. apply Qle_bool_iff in E2.
  apply interpolation_range; lra.
Qed.

Lemma metricScore_range (data : Reading) (m : metric) :
  0 <= metricScore data m <= 100.
Proof.
  destruct m; unfold metricScore;
    first [ apply calculateMetricScore_range; reflexivity
          | apply calculateUpperBoundScore_range ].
Qed.

Lemma compositeScore_range (data : Reading) :
  0 <= compositeScore data <= 100.
Proof.
  pose proof (metricScore_range data Temperature) as H1.
  pose proof (metricScore_range data Voltage) as H2.
  pose proof (metricScore_range data Current) as H3.
  pose proof (metricScore_range data Vibration) as H4.
  pose proof (metricScore_range data Displacement) as H5.
  pose proof (metricScore_range data Tilt) as H6.
  unfold compositeScore. cbv zeta.
  unfold config.healthScoreWeights.temperature,
    config.healthScoreWeights.voltage, config.healthScoreWeights.current,
    config.healthScoreWeights.vibration,
    config.healthScoreWeights.displacement, config.healthScoreWeights.tilt.
  split; lra.
Qed.

Lemma Math_round_nearest (q : Q) :
  q - (1 # 2) < inject_Z (Math_round q) /\ inject_Z (Math_round q) <= q + (1 # 2).
Proof.
  unfold Math_round. split.
  - pose proof (Qlt_floor (q + (1 # 2))) as H.
    rewrite inject_Z_plus in H. change (inject_Z 1) with 1 in H. lra.
  - apply Qfloor_le.
Qed.

(** C8.  For every reading, numeric in all fields or not,
    [calculateHealthScore] returns an integer between 0 and 100; it is the
    integer nearest to the weighted composite (the clamp never has to cut,
    the composite itself lying between 0 and 100). *)
Theorem health_score_integer_in_range (data : Reading) :
  (0 <= calculateHealthScore data <= 100)%Z
  /\ calculateHealthScore data = Math_round (compositeScore data)
  /\ compositeScore data - (1 # 2) < inject_Z (calculateHealthScore data)
  /\ inject_Z (calculateHealthScore data) <= compositeScore data + (1 # 2).
Proof.
  pose proof (compositeScore_range data) as [Hlo Hhi].
  assert (Hr : (0 <= Math_round (compositeScore data) <= 100)%Z).
  { unfold Math_round. split.
    - change 0%Z with (Qfloor (1 # 2)). apply Qfloor_resp_le. lra.
    - change 100%Z with (Qfloor (100 + (1 # 2))). apply Qfloor_resp_le. lra. }
  assert (He : calculateHealthScore data = Math_round (compositeScore data)).
  { unfold calculateHealthScore. lia. }
  rewrite He. split; [exact Hr|]. split; [reflexivity|].
  apply Math_round_nearest.
Qed.

(** ** History store *)

Lemma push_capped_fifo {A : Type} (limit : nat) (log : list A) (entry : A) :
  (0 < limit)%nat -> (List.length log <= limit)%nat ->
  push_capped limit log entry = fifo_append limit log entry.
Proof.
  intros Hpos Hlen. unfold push_capped, fifo_append.
  rewrite length_app. cbn [List.length].
  destruct (Nat.ltb_spec (List.length log) limit) as [Hlt|Hge].
  - destruct (Nat.ltb_spec limit (List.length log + 1)) as [H|H];
      [lia | reflexivity].
  - destruct (Nat.ltb_spec limit (List.length log + 1)) as [H|H]; [|lia].
    destruct log as [|oldest rest]; [cbn [List.length] in Hge; lia|].
    reflexivity.
Qed.

Lemma push_capped_length {A : Type} (limit : nat) (log : list A) (entry : A) :
  (List.length log <= limit)%nat ->
  (List.length (push_capped limit log entry) <= limit)%nat.
Proof.
  intros Hlen. unfold push_capped.
  destruct (Nat.ltb_spec limit (List.length (log ++ [entry]))) as [H|H];
    [|exact H].
  rewrite length_app in H. cbn [List.length] in H.
  destruct log as [|oldest rest].
  - cbn. lia.
  - cbn [app tl]. rewrite length_app. cbn [List.length] in *. lia.
Qed.

Lemma historyLimit_is_1000 : config.historyLimit = 1000%nat.
Proof. reflexivity. Qed.

Lemma receiveData_bounded (now : Z) (rawData : Reading) (s : State) :
  bounded s -> bounded (snd (receiveData now rawData s)).
Proof.
  intros (Hp & Hh & Ha). unfold receiveData.
  destruct (detectAnomaly rawData) as [r|e]; [|repeat split; assumption].
  cbn [snd]. unfold bounded.
  destruct (ar_isAnomaly r);
    cbn [recordHealthHistory triggerAnomalyEvent logAnomaly
         recordProcessedData processedDataHistory healthHistory anomalyLog];
    repeat split;
    try (apply push_capped_length; assumption);
    try assumption.
Qed.

Lemma ingest_all_bounded (inputs : list (Z * Reading)) (s : State) :
  bounded s -> bounded (ingest_all inputs s).
Proof.
  revert s. induction inputs as [|[now rawData] rest IH]; intros s Hs.
  - exact Hs.
  - cbn [ingest_all]. apply IH. apply receiveData_bounded. exact Hs.
Qed.

Lemma initial_bounded : bounded initial.
Proof. unfold bounded, initial. cbn. repeat split; apply Nat.le_0_l. Qed.

(** C7.  After any sequence of ingested readings each of the three logs
    holds at most [historyLimit] = 1000 entries, and the next call of
    [receiveData] appends first-in first-out: to the processed records and
    the health samples always, to the anomaly log when the reading is
    anomalous; an append at the cap drops exactly the oldest entry and keeps
    the order of the others.  A call that raises stores nothing. *)
Theorem history_logs_bounded_fifo (inputs : list (Z * Reading)) (now : Z)
    (rawData : Reading) :
  let s := ingest_all inputs initial in
  let s' := snd (receiveData now rawData s) in
  config.historyLimit = 1000%nat
  /\ bounded s
  /\ bounded s'
  /\ match fst (receiveData now rawData s) with
     | Returns r =>
         processedDataHistory s'
         = fifo_append config.historyLimit (processedDataHistory s)
             (mkProcessed (timestamp_or now rawData) rawData (healthScore r)
                (isAnomaly r) (anomalyReason r))
         /\ healthHistory s'
            = fifo_append config.historyLimit (healthHistory s)
                (mkSample now (healthScore r))
         /\ anomalyLog s'
            = (if isAnomaly r then
                 fifo_append config.historyLimit (anomalyLog s)
                   (mkAnomalyRecord (timestamp_or now rawData) rawData
                      (anomalyReason r))
               else anomalyLog s)
     | Throws _ => s' = s
     end.
Proof.
  cbv zeta.
  pose proof (ingest_all_bounded inputs initial initial_bounded) as Hb.
  split; [reflexivity|]. split; [exact Hb|].
  split; [apply receiveData_bounded; exact Hb|].
  destruct Hb as (Hp & Hh & Ha).
  assert (Hpos : (0 < config.historyLimit)%nat)
    by (rewrite historyLimit_is_1000; lia).
  unfold receiveData.
  destruct (detectAnomaly rawData) as [r|e]; [|reflexivity].
  cbn [fst snd isAnomaly anomalyReason healthScore].
  unfold recordHealthHistory, triggerAnomalyEvent, logAnomaly,
    recordProcessedData.
  destruct (ar_isAnomaly r);
    cbn [processedDataHistory healthHistory anomalyLog];
    (split; [apply push_capped_fifo; assumption|]);
    (split; [apply push_capped_fifo; assumption|]);
    [|reflexivity].
  rewrite historyLimit_is_1000 in *. apply push_capped_fifo; assumption.
Qed.

(** ** Accuracy sub-score *)

Lemma count_loop_filter {A : Type} (test : A -> bool) (items : list A)
    (counter : nat) :
  count_loop test items counter
  = (counter + List.length (filter test items))%nat.
Proof.
  revert counter. induction items as [|item rest IH]; intros counter.
  - cbn. lia.
  - cbn [count_loop filter]. rewrite IH.
    destruct (test item); cbn [List.length]; lia.
Qed.

Lemma calculateDataAccuracy_filter (s : State) :
  processedDataHistory s <> [] ->
  calculateDataAccuracy s
  = percentage_metric
      (List.length
         (filter (fun item => validateDataAccuracy s (pr_data item))
            (processedDataHistory s)))
      (List.length (processedDataHistory s)).
Proof.
  intros Hne. unfold calculateDataAccuracy.
  destruct (processedDataHistory s) as [|item rest] eqn:E; [congruence|].
  rewrite count_loop_filter. reflexivity.
Qed.

(** C5: the code departs from the claim.  In every state the accuracy
    sub-score is the percentage of retained records whose stored reading
    lies within the absolute bounds, and nothing more: the rate-of-change
    part of [validateDataAccuracy] reads the six metrics off the newest
    history entry itself, where they are undefined, so it rejects no record.
    On ten retained records of which the second is 10 degrees away from its
    predecessor, the check against each record's own predecessor fails one
    record in ten (90.0 percent), and the reported accuracy is 100.0
    percent. *)
Theorem accuracy_subscore_ignores_rate_of_change :
  (forall s : State,
     calculateDataAccuracy s
     = match processedDataHistory s with
       | [] => mkQuality "0%" (Some 0%Z)
       | _ =>
           percentage_metric
             (List.length
                (filter (fun item => within_absolute_bounds (pr_data item))
                   (processedDataHistory s)))
             (List.length (processedDataHistory s))
       end)
  /\ (let s := ingest_all step_inputs initial in
      List.length (processedDataHistory s) = 10%nat
      /\ spec_calculateDataAccuracy s = mkQuality "90.0%" (Some 90%Z)
      /\ calculateDataAccuracy s = mkQuality "100.0%" (Some 100%Z)
      /\ calculateDataAccuracy s <> spec_calculateDataAccuracy s).
Proof.
  split.
  - intros s.
    destruct (processedDataHistory s) as [|item rest] eqn:E.
    + unfold calculateDataAccuracy. rewrite E. reflexivity.
    + rewrite calculateDataAccuracy_filter by (rewrite E; discriminate).
      rewrite E.
      rewrite (filter_ext
                 (fun item0 => validateDataAccuracy s (pr_data item0))
                 (fun item0 => within_absolute_bounds (pr_data item0)))
        by (intros item0; apply validateDataAccuracy_absolute_only).
      reflexivity.
  - cbv zeta. repeat split; try (vm_compute; reflexivity).
    vm_compute. discriminate.
Qed.

Example oldest_entry_evicted_at_1001 :
  let s := ingest_all (many_inputs 1001) initial in
  List.length (processedDataHistory s) = 1000%nat
  /\ List.length (healthHistory s) = 1000%nat
  /\ option_map pr_timestamp (hd_error (processedDataHistory s)) = Some 2%Z
  /\ option_map pr_timestamp (last_entry (processedDataHistory s))
     = Some 1001%Z
  /\ map pr_timestamp (getProcessedDataHistory 3 s) = [1001; 1000; 999]%Z.
Proof. vm_compute. repeat split; reflexivity. Qed.
